(** * modern-cpp-template: the [tmp] library and its build-information report

    A shallow embedding of [src/tmp.cpp], of the executable's entry point
    and of [cmake/buildinfo.script.cmake], with the properties the
    specification states about them. *)

From Stdlib Require Import ZArith Lia Bool List Ascii String.
Import ListNotations.

Local Open Scope string_scope.

(** ** Text *)

(** The C++ escape ['\n']. *)
Definition LF_char : ascii := ascii_of_nat 10.
Definition LF : string := String LF_char EmptyString.

Module Text.

(** The characters of [s] from position [n] on. *)
Fixpoint skip (n : nat) (s : string) : string :=
  match n, s with
  | O, _ => s
  | S _, EmptyString => EmptyString
  | S n', String _ s' => skip n' s'
  end.

(** The first [n] characters of [s]. *)
Fixpoint take (n : nat) (s : string) : string :=
  match n, s with
  | O, _ => EmptyString
  | S _, EmptyString => EmptyString
  | S n', String c s' => String c (take n' s')
  end.

(** Removal of [len] characters at offset [off]. *)
Definition delete_span (off len : nat) (s : string) : string :=
  take off s ++ skip (off + len) s.

(** [starts_with p s]: the text [p] begins [s]. *)
Fixpoint starts_with (p s : string) : bool :=
  match p, s with
  | EmptyString, _ => true
  | String _ _, EmptyString => false
  | String a p', String b s' => Ascii.eqb a b && starts_with p' s'
  end.

(** [contains p s]: the text [p] occurs somewhere in [s]. *)
Fixpoint contains (p s : string) : bool :=
  starts_with p s ||
  match s with
  | EmptyString => false
  | String _ s' => contains p s'
  end.

(** Number of positions of [s] at which the text [p] starts. *)
Fixpoint occurrences (p s : string) : nat :=
  match s with
  | EmptyString => 0
  | String _ s' => (if starts_with p s then 1 else 0) + occurrences p s'
  end.

(** [mem c s]: the character [c] occurs in [s]. *)
Fixpoint mem (c : ascii) (s : string) : bool :=
  match s with
  | EmptyString => false
  | String x s' => Ascii.eqb c x || mem c s'
  end.

(** Each line followed by a line feed. *)
Fixpoint unlines (ls : list string) : string :=
  match ls with
  | [] => EmptyString
  | l :: ls' => l ++ LF ++ unlines ls'
  end.

End Text.

(** ** The C++ [int]

    A 32-bit two's-complement integer, carried by [Z]; a result out of
    range wraps around. *)
Module Int.

Definition min : Z := - 2 ^ 31.
Definition max : Z := 2 ^ 31 - 1.
Definition modulus : Z := 2 ^ 32.

Definition representable (z : Z) : Prop := (min <= z <= max)%Z.

(** Reduction of a mathematical integer modulo [2^32] into the signed
    range. *)
Definition wrap (z : Z) : Z := ((z - min) mod modulus + min)%Z.

End Int.

(** ** Output streams

    A [std::ostream] in good state with default formatting that stands at
    the end of its sink is modelled by the characters the sink holds;
    [operator<<] appends.  Streams with a put position, a pending width
    and a state are in [ios] below. *)
Definition Ostream : Type := string.

Definition put (os : Ostream) (s : string) : Ostream := os ++ s.
Definition put_char (os : Ostream) (c : ascii) : Ostream := os ++ String c EmptyString.

Declare Scope stream_scope.
Delimit Scope stream_scope with stream.
Notation "os << s" := (put os s) (at level 65, left associativity) : stream_scope.
Notation "os <<' c" := (put_char os c) (at level 65, left associativity) : stream_scope.
Local Open Scope stream_scope.

(** What a call appended to a stream that held [before] when it started. *)
Definition written (before after : Ostream) : string :=
  Text.skip (String.length before) after.

(** ** The build metadata record

    The constants of [project/version.hpp] and of the generated build
    information header, as the reporters read them. *)
Record Metadata : Type := {
  version : string;
  build_type : string;
  build_timestamp : string;
  build_user : string;
  build_host : string;
  target_system : string;
  target_architecture : string;
  host_system : string;
  compiler_id : string;
  compiler_version : string;
  git_describe : string;
  git_commit_hash : string
}.

(** ** [src/tmp.cpp] *)
Module tmp.

(** [int add(int left, int right) { return left + right; }] *)
Definition add (left right : Z) : Z := Int.wrap (left + right).

Section Reporter.
(** The constants of namespace [project]. *)
Variable project : Metadata.

Definition DumpBuildInfo (ostream : Ostream) : Ostream :=
  let ostream := ostream << "Build Information" ++ LF in
  let ostream := ostream << "-----------------" ++ LF in
  let ostream := ostream << "Version  : " << version project << LF in
  let ostream := ostream << "Build    : " << build_type project << " ("
                         << build_timestamp project << ")" ++ LF in
  let ostream := ostream << "User     : " << build_user project << " @ "
                         << build_host project << LF ++ LF in
  let ostream := ostream << "Platform : " << target_system project << " "
                         << target_architecture project << LF in
  let ostream := ostream << "Host     : " << host_system project << LF ++ LF in
  let ostream := ostream << "Compiler : " << compiler_id project << " "
                         << compiler_version project << LF ++ LF in
  let ostream := ostream << "Source   : " << git_describe project <<' LF_char in
  let ostream := ostream << "Commit   : " << git_commit_hash project <<' LF_char in
  ostream.
End Reporter.

End tmp.

(** ** The executable: its own reporter and [main] *)
Module exe.

Section Reporter.
(** The macros of [buildinfo_bin.hpp]. *)
Variable buildinfo_bin : Metadata.
Let BUILD_TYPE : string := build_type buildinfo_bin.
Let BUILD_TIMESTAMP : string := build_timestamp buildinfo_bin.
Let BUILD_USER : string := build_user buildinfo_bin.
Let BUILD_HOST : string := build_host buildinfo_bin.
Let TARGET_SYSTEM : string := target_system buildinfo_bin.
Let TARGET_ARCHITECTURE : string := target_architecture buildinfo_bin.
Let HOST_SYSTEM : string := host_system buildinfo_bin.
Let COMPILER_ID : string := compiler_id buildinfo_bin.
Let COMPILER_VERSION : string := compiler_version buildinfo_bin.
Let GIT_DESCRIBE : string := git_describe buildinfo_bin.
Let GIT_COMMIT_HASH : string := git_commit_hash buildinfo_bin.

Definition DumpBuildInfo (ostream : Ostream) : Ostream :=
  ostream << "Build Information" ++ LF ++
             "-----------------" ++ LF ++
             "Build    : "
          << BUILD_TYPE << " (" << BUILD_TIMESTAMP
          << ")" ++ LF ++
             "User     : "
          << BUILD_USER << " @ " << BUILD_HOST
          << LF ++ LF ++
             "Platform : "
          << TARGET_SYSTEM << " " << TARGET_ARCHITECTURE
          << LF ++
             "Host     : "
          << HOST_SYSTEM
          << LF ++ LF ++
             "Compiler : "
          << COMPILER_ID << " " << COMPILER_VERSION
          << LF ++ LF ++
             "Source   : "
          << GIT_DESCRIBE <<' LF_char
          << "Commit   : " << GIT_COMMIT_HASH <<' LF_char.
End Reporter.

(** The process as [main] sees it: the two generated headers compiled
    into the binary and the standard output stream. *)
Record Process : Type := {
  buildinfo_lib : Metadata;
  buildinfo_bin : Metadata;
  cout : Ostream
}.

Definition with_cout (p : Process) (os : Ostream) : Process :=
  {| buildinfo_lib := buildinfo_lib p;
     buildinfo_bin := buildinfo_bin p;
     cout := os |}.

(** [int main(int argc, char* argv[])]: both reporters are called with
    their default argument [std::cout]; the result is the exit status. *)
Definition main (argc : Z) (argv : list string) (p : Process) : Z * Process :=
  let p := with_cout p (tmp.DumpBuildInfo (buildinfo_lib p) (cout p)) in
  let p := with_cout p (DumpBuildInfo (buildinfo_bin p) (cout p)) in
  (0%Z, p).

End exe.

(** ** [cmake/buildinfo.script.cmake] *)
Module buildinfo_script.

(** *** The CMake commands the script relies on *)

Definition toupper_char (c : ascii) : ascii :=
  let n := nat_of_ascii c in
  if ((97 <=? n)%nat && (n <=? 122)%nat)%bool then ascii_of_nat (n - 32) else c.

(** [string(TOUPPER <string> <out>)] *)
Fixpoint TOUPPER (s : string) : string :=
  match s with
  | EmptyString => EmptyString
  | String c s' => String (toupper_char c) (TOUPPER s')
  end.

Fixpoint ends_with (suffix s : string) : bool :=
  String.eqb suffix s ||
  match s with
  | EmptyString => false
  | String _ s' => ends_with suffix s'
  end.

(** The values CMake's [if()] takes for false: the empty string, [0],
    [N], [NO], [OFF], [FALSE], [IGNORE] in any case, [NOTFOUND] and
    whatever ends in [-NOTFOUND]. *)
Definition is_off (value : string) : bool :=
  match TOUPPER value with
  | "" | "0" | "N" | "NO" | "OFF" | "FALSE" | "IGNORE" => true
  | _ => String.eqb value "NOTFOUND" || ends_with "-NOTFOUND" value
  end.

(** [string(TIMESTAMP <out> <format>)]: each [%x] of the format is
    replaced by the rendering [now x] of that component of the current
    time, every other character is copied. *)
Fixpoint TIMESTAMP (now : ascii -> string) (format : string) : string :=
  match format with
  | String "%" (String x rest) => now x ++ TIMESTAMP now rest
  | String c rest => String c (TIMESTAMP now rest)
  | EmptyString => EmptyString
  end.

(** *** What one run of the script depends on *)
Record Invocation : Type := {
  (* variables passed with -D; an undefined one reads as the empty string *)
  CMAKE_BUILD_TYPE : string;
  CMAKE_CXX_COMPILER_ID : string;
  CMAKE_CXX_COMPILER_VERSION : string;
  CMAKE_HOST_SYSTEM : string;
  CMAKE_HOST_SYSTEM_NAME : string;
  CMAKE_SYSTEM_NAME : string;
  CMAKE_SYSTEM_PROCESSOR : string;
  (* the machine *)
  now : ascii -> string;
  GIT_FOUND : bool;
  dot_git_exists : bool;
  git_rev_parse_short_HEAD : string;
  git_describe_tags_always_dirty : string;
  ENV_USER : option string;
  ENV_USERNAME : option string
}.

(** The macros of the generated header. *)
Record Header : Type := {
  BUILD_TIMESTAMP : string;
  BUILD_TYPE : string;
  BUILD_USER : string;
  BUILD_HOST : string;
  TARGET_SYSTEM : string;
  TARGET_ARCHITECTURE : string;
  HOST_SYSTEM : string;
  COMPILER_ID : string;
  COMPILER_VERSION : string;
  GIT_COMMIT_HASH : string;
  GIT_DESCRIBE : string
}.

Section Script.
Variable i : Invocation.

Definition generate : Header :=
  let _timestamp := TIMESTAMP (now i) "%Y-%m-%d %H:%M:%S %Z" in
  let _build_type_upper := TOUPPER (CMAKE_BUILD_TYPE i) in
  let _build_type_upper :=
    if is_off _build_type_upper then "UNKNOWN" else _build_type_upper in
  let _compiler_id := CMAKE_CXX_COMPILER_ID i in
  let _compiler_version := CMAKE_CXX_COMPILER_VERSION i in
  let _system_name := CMAKE_SYSTEM_NAME i in
  let _system_processor := CMAKE_SYSTEM_PROCESSOR i in
  let _host_system := CMAKE_HOST_SYSTEM_NAME i in
  let '(_git_hash, _git_describe) :=
    if GIT_FOUND i && dot_git_exists i
    then (git_rev_parse_short_HEAD i, git_describe_tags_always_dirty i)
    else ("unknown", "no-git") in
  let _build_user :=
    match ENV_USER i, ENV_USERNAME i with
    | Some user, _ => user
    | None, Some username => username
    | None, None => "unknown"
    end in
  let _build_host := CMAKE_HOST_SYSTEM i in
  {| BUILD_TIMESTAMP := _timestamp;
     BUILD_TYPE := _build_type_upper;
     BUILD_USER := _build_user;
     BUILD_HOST := _build_host;
     TARGET_SYSTEM := _system_name;
     TARGET_ARCHITECTURE := _system_processor;
     HOST_SYSTEM := CMAKE_HOST_SYSTEM_NAME i;
     COMPILER_ID := _compiler_id;
     COMPILER_VERSION := _compiler_version;
     GIT_COMMIT_HASH := _git_hash;
     GIT_DESCRIBE := _git_describe |}.
End Script.

End buildinfo_script.

(** The record the library's reporter reads: [project::version] comes from
    [project/version.hpp], every other constant carries the macro of the
    same name from the generated header.  The header spells each value as
    a string literal, so this is the reading of values that hold no double
    quote, backslash or line break. *)
Definition metadata_of (project_version : string)
                       (h : buildinfo_script.Header) : Metadata := {|
  version := project_version;
  build_type := buildinfo_script.BUILD_TYPE h;
  build_timestamp := buildinfo_script.BUILD_TIMESTAMP h;
  build_user := buildinfo_script.BUILD_USER h;
  build_host := buildinfo_script.BUILD_HOST h;
  target_system := buildinfo_script.TARGET_SYSTEM h;
  target_architecture := buildinfo_script.TARGET_ARCHITECTURE h;
  host_system := buildinfo_script.HOST_SYSTEM h;
  compiler_id := buildinfo_script.COMPILER_ID h;
  compiler_version := buildinfo_script.COMPILER_VERSION h;
  git_describe := buildinfo_script.GIT_DESCRIBE h;
  git_commit_hash := buildinfo_script.GIT_COMMIT_HASH h
|}.

(** ** The reports as text *)

(** What a reporter hands to a fresh [std::ostringstream], as the unit test
    reads it back with [oss.str()]. *)
Definition lib_output (project : Metadata) : string :=
  tmp.DumpBuildInfo project EmptyString.

Definition exe_output (buildinfo_bin : Metadata) : string :=
  exe.DumpBuildInfo buildinfo_bin EmptyString.

(** The lines both reporters share, after the title and its underline. *)
Definition body_lines (m : Metadata) : list string :=
  [ "Build    : " ++ build_type m ++ " (" ++ build_timestamp m ++ ")";
    "User     : " ++ build_user m ++ " @ " ++ build_host m;
    "";
    "Platform : " ++ target_system m ++ " " ++ target_architecture m;
    "Host     : " ++ host_system m;
    "";
    "Compiler : " ++ compiler_id m ++ " " ++ compiler_version m;
    "";
    "Source   : " ++ git_describe m;
    "Commit   : " ++ git_commit_hash m ].

Definition version_line (m : Metadata) : string :=
  "Version  : " ++ version m ++ LF.

(** The literal section labels of the report. *)
Definition section_labels : list string :=
  [ "Build Information"; "Build"; "User"; "Platform"; "Host"; "Compiler";
    "Source"; "Commit" ].

Definition fields (m : Metadata) : list string :=
  [ version m; build_type m; build_timestamp m; build_user m; build_host m;
    target_system m; target_architecture m; host_system m;
    compiler_id m; compiler_version m; git_describe m; git_commit_hash m ].

(** No field of [m] holds the text [word]. *)
Definition free_of (word : string) (m : Metadata) : Prop :=
  forall f, In f (fields m) -> Text.occurrences word f = 0.

(** Every field of [m] has at least one character. *)
Definition complete (m : Metadata) : bool :=
  forallb (fun f => negb (String.eqb f EmptyString)) (fields m).

(** ** Sample builds *)

(** A release build on a machine without Git. *)
Definition sample_release : Metadata := {|
  version := "0.1.0";
  build_type := "RELEASE";
  build_timestamp := "2024-01-01 00:00:00 UTC";
  build_user := "unknown";
  build_host := "Linux-6.1.0";
  target_system := "Linux";
  target_architecture := "x86_64";
  host_system := "Linux";
  compiler_id := "GNU";
  compiler_version := "13.2.0";
  git_describe := "no-git";
  git_commit_hash := "unknown"
|}.

Definition new_year_2024 (specifier : ascii) : string :=
  match specifier with
  | "Y"%char => "2024"
  | "m"%char => "01"
  | "d"%char => "01"
  | "H"%char => "00"
  | "M"%char => "00"
  | "S"%char => "00"
  | "Z"%char => "UTC"
  | _ => ""
  end.

(** A cross build from a container: the toolchain file names the target
    system but no processor, there is no Git and no [USER]. *)
Definition cross_build : buildinfo_script.Invocation := {|
  buildinfo_script.CMAKE_BUILD_TYPE := "Release";
  buildinfo_script.CMAKE_CXX_COMPILER_ID := "GNU";
  buildinfo_script.CMAKE_CXX_COMPILER_VERSION := "13.2.0";
  buildinfo_script.CMAKE_HOST_SYSTEM := "Linux-6.1.0";
  buildinfo_script.CMAKE_HOST_SYSTEM_NAME := "Linux";
  buildinfo_script.CMAKE_SYSTEM_NAME := "Generic";
  buildinfo_script.CMAKE_SYSTEM_PROCESSOR := "";
  buildinfo_script.now := new_year_2024;
  buildinfo_script.GIT_FOUND := false;
  buildinfo_script.dot_git_exists := false;
  buildinfo_script.git_rev_parse_short_HEAD := "";
  buildinfo_script.git_describe_tags_always_dirty := "";
  buildinfo_script.ENV_USER := None;
  buildinfo_script.ENV_USERNAME := None
|}.

Definition cross_build_metadata : Metadata :=
  metadata_of "0.1.0" (buildinfo_script.generate cross_build).

(** ** The earlier revision of [src/tmp.cpp]

    [add] with parameters [a] and [b], and a reporter that reads the macros
    of [buildinfo_lib.hpp] in one chained statement. *)
Module tmp_macros.

(** [int tmp::add(int a, int b) { return a + b; }] *)
Definition add (a b : Z) : Z := Int.wrap (a + b).

Section Reporter.
Variable buildinfo_lib : Metadata.
Let BUILD_TYPE : string := build_type buildinfo_lib.
Let BUILD_TIMESTAMP : string := build_timestamp buildinfo_lib.
Let BUILD_USER : string := build_user buildinfo_lib.
Let BUILD_HOST : string := build_host buildinfo_lib.
Let TARGET_SYSTEM : string := target_system buildinfo_lib.
Let TARGET_ARCHITECTURE : string := target_architecture buildinfo_lib.
Let HOST_SYSTEM : string := host_system buildinfo_lib.
Let COMPILER_ID : string := compiler_id buildinfo_lib.
Let COMPILER_VERSION : string := compiler_version buildinfo_lib.
Let GIT_DESCRIBE : string := git_describe buildinfo_lib.
Let GIT_COMMIT_HASH : string := git_commit_hash buildinfo_lib.

Definition DumpBuildInfo (os : Ostream) : Ostream :=
  os << "Build Information" ++ LF ++
        "-----------------" ++ LF ++
        "Build    : "
     << BUILD_TYPE << " (" << BUILD_TIMESTAMP
     << ")" ++ LF ++
        "User     : "
     << BUILD_USER << " @ " << BUILD_HOST
     << LF ++ LF ++
        "Platform : "
     << TARGET_SYSTEM << " " << TARGET_ARCHITECTURE
     << LF ++
        "Host     : "
     << HOST_SYSTEM
     << LF ++ LF ++
        "Compiler : "
     << COMPILER_ID << " " << COMPILER_VERSION
     << LF ++ LF ++
        "Source   : "
     << GIT_DESCRIBE <<' LF_char
     << "Commit   : " << GIT_COMMIT_HASH <<' LF_char.
End Reporter.

End tmp_macros.

(** ** The later revision of the executable

    The reporter sits in an unnamed namespace and reads the constants of
    namespace [project], one statement per line; [main] names neither of
    its parameters. *)
Module exe_ns.

Section Reporter.
(** The constants of namespace [project] as [buildinfo_bin.hpp] has them. *)
Variable project : Metadata.

Definition DumpBuildInfo (ostream : Ostream) : Ostream :=
  let ostream := ostream << "Build Information" ++ LF in
  let ostream := ostream << "-----------------" ++ LF in
  let ostream := ostream << "Build    : " << build_type project << " ("
                         << build_timestamp project << ")" ++ LF in
  let ostream := ostream << "User     : " << build_user project << " @ "
                         << build_host project << LF ++ LF in
  let ostream := ostream << "Platform : " << target_system project << " "
                         << target_architecture project << LF in
  let ostream := ostream << "Host     : " << host_system project << LF ++ LF in
  let ostream := ostream << "Compiler : " << compiler_id project << " "
                         << compiler_version project << LF ++ LF in
  let ostream := ostream << "Source   : " << git_describe project <<' LF_char in
  let ostream := ostream << "Commit   : " << git_commit_hash project <<' LF_char in
  ostream.
End Reporter.

(** [int main(int /*argc*/, char** /*argv*/)] *)
Definition main (_ : Z) (_ : list string) (p : exe.Process) : Z * exe.Process :=
  let p := exe.with_cout p (tmp.DumpBuildInfo (exe.buildinfo_lib p) (exe.cout p)) in
  let p := exe.with_cout p (DumpBuildInfo (exe.buildinfo_bin p) (exe.cout p)) in
  (0%Z, p).

End exe_ns.

(** ** Measures and shapes of records *)

(** Total number of line feeds in the given texts. *)
Fixpoint total_line_feeds (ls : list string) : nat :=
  match ls with
  | [] => 0
  | s :: ls' => Text.occurrences LF s + total_line_feeds ls'
  end.

(** The fields the executable's reporter prints: all but the version. *)
Definition exe_fields (m : Metadata) : list string :=
  [ build_type m; build_timestamp m; build_user m; build_host m;
    target_system m; target_architecture m; host_system m;
    compiler_id m; compiler_version m; git_describe m; git_commit_hash m ].

(** No field holds a line feed. *)
Definition single_line (m : Metadata) : Prop :=
  forall f, In f (fields m) -> Text.mem LF_char f = false.

(** A record whose report can be read back: every field on one line, and
    no space in the first field of a line that prints two. *)
Definition readable (m : Metadata) : Prop :=
  single_line m /\
  Text.mem " " (build_type m) = false /\
  Text.mem " " (build_user m) = false /\
  Text.mem " " (target_system m) = false /\
  Text.mem " " (compiler_id m) = false.

(** [m] with another target system and architecture. *)
Definition with_platform (m : Metadata) (system architecture : string) : Metadata := {|
  version := version m;
  build_type := build_type m;
  build_timestamp := build_timestamp m;
  build_user := build_user m;
  build_host := build_host m;
  target_system := system;
  target_architecture := architecture;
  host_system := host_system m;
  compiler_id := compiler_id m;
  compiler_version := compiler_version m;
  git_describe := git_describe m;
  git_commit_hash := git_commit_hash m
|}.

(** An ASCII lower-case letter. *)
Definition is_lower (c : ascii) : bool :=
  let n := nat_of_ascii c in ((97 <=? n)%nat && (n <=? 122)%nat)%bool.

(** [p] holds of every character of [s]. *)
Fixpoint all_chars (p : ascii -> bool) (s : string) : bool :=
  match s with
  | EmptyString => true
  | String c s' => p c && all_chars p s'
  end.

(** [i] run again with another [-DCMAKE_BUILD_TYPE]. *)
Definition with_build_type (i : buildinfo_script.Invocation) (value : string)
    : buildinfo_script.Invocation := {|
  buildinfo_script.CMAKE_BUILD_TYPE := value;
  buildinfo_script.CMAKE_CXX_COMPILER_ID := buildinfo_script.CMAKE_CXX_COMPILER_ID i;
  buildinfo_script.CMAKE_CXX_COMPILER_VERSION := buildinfo_script.CMAKE_CXX_COMPILER_VERSION i;
  buildinfo_script.CMAKE_HOST_SYSTEM := buildinfo_script.CMAKE_HOST_SYSTEM i;
  buildinfo_script.CMAKE_HOST_SYSTEM_NAME := buildinfo_script.CMAKE_HOST_SYSTEM_NAME i;
  buildinfo_script.CMAKE_SYSTEM_NAME := buildinfo_script.CMAKE_SYSTEM_NAME i;
  buildinfo_script.CMAKE_SYSTEM_PROCESSOR := buildinfo_script.CMAKE_SYSTEM_PROCESSOR i;
  buildinfo_script.now := buildinfo_script.now i;
  buildinfo_script.GIT_FOUND := buildinfo_script.GIT_FOUND i;
  buildinfo_script.dot_git_exists := buildinfo_script.dot_git_exists i;
  buildinfo_script.git_rev_parse_short_HEAD := buildinfo_script.git_rev_parse_short_HEAD i;
  buildinfo_script.git_describe_tags_always_dirty :=
    buildinfo_script.git_describe_tags_always_dirty i;
  buildinfo_script.ENV_USER := buildinfo_script.ENV_USER i;
  buildinfo_script.ENV_USERNAME := buildinfo_script.ENV_USERNAME i
|}.


(** ** Output streams with their state

    What [operator<<] does to a [std::ostream] beyond appending
    ([ostream.formatted.reqmts]): nothing is written unless the stream is
    good; the characters are put at the put position, over what the sink
    holds there; a character sequence shorter than the pending field width
    is padded with the fill character, after it when the adjustment is
    [left] and before it otherwise; the width is then reset to 0.  The sink
    takes every character it is given, as a [std::stringbuf] does. *)
Module ios.

Record ostream : Type := {
  before : string;     (* the sink's characters up to the put position *)
  beyond : string;     (* the sink's characters from the put position on *)
  width : nat;         (* [os.width()] *)
  fill : ascii;        (* [os.fill()] *)
  adjust_left : bool;  (* [(os.flags() & adjustfield) == left] *)
  good : bool          (* [os.good()] *)
}.

(** All the characters the sink holds. *)
Definition sequence (os : ostream) : string := before os ++ beyond os.

Fixpoint fill_chars (n : nat) (c : ascii) : string :=
  match n with
  | O => EmptyString
  | S n' => String c (fill_chars n' c)
  end.

Definition pad (os : ostream) (seq : string) : string :=
  let n := width os - String.length seq in
  if adjust_left os then seq ++ fill_chars n (fill os)
  else fill_chars n (fill os) ++ seq.

(** [text] put at the put position of a good stream, and the width reset. *)
Definition emit (os : ostream) (text : string) : ostream := {|
  before := before os ++ text;
  beyond := Text.skip (String.length text) (beyond os);
  width := 0;
  fill := fill os;
  adjust_left := adjust_left os;
  good := true
|}.

(** [os << seq] for a character sequence. *)
Definition insert (os : ostream) (seq : string) : ostream :=
  if good os then emit os (pad os seq) else os.

(** [os << c] for a single character. *)
Definition insert_char (os : ostream) (c : ascii) : ostream :=
  insert os (String c EmptyString).

(** [std::ostringstream oss;] *)
Definition fresh : ostream := {|
  before := ""; beyond := ""; width := 0; fill := " "; adjust_left := false;
  good := true
|}.

(** [std::ostringstream oss; oss << std::setw(n);] *)
Definition setw (n : nat) (os : ostream) : ostream := {|
  before := before os; beyond := beyond os; width := n; fill := fill os;
  adjust_left := adjust_left os; good := good os
|}.

(** [std::ostringstream oss(contents);]: the put position is at the start. *)
Definition holding (contents : string) : ostream := {|
  before := ""; beyond := contents; width := 0; fill := " ";
  adjust_left := false; good := true
|}.

End ios.

Declare Scope ios_scope.
Delimit Scope ios_scope with ios.
Notation "os << s" := (ios.insert os s) (at level 65, left associativity) : ios_scope.
Notation "os <<' c" := (ios.insert_char os c) (at level 65, left associativity) : ios_scope.

(** ** The reporters on streams with their state *)
Module stateful.

Module tmp.
Section Reporter.
(** The constants of namespace [project]. *)
Variable project : Metadata.

Definition DumpBuildInfo (ostream : ios.ostream) : ios.ostream :=
  (let ostream := ostream << "Build Information" ++ LF in
   let ostream := ostream << "-----------------" ++ LF in
   let ostream := ostream << "Version  : " << version project << LF in
   let ostream := ostream << "Build    : " << build_type project << " ("
                          << build_timestamp project << ")" ++ LF in
   let ostream := ostream << "User     : " << build_user project << " @ "
                          << build_host project << LF ++ LF in
   let ostream := ostream << "Platform : " << target_system project << " "
                          << target_architecture project << LF in
   let ostream := ostream << "Host     : " << host_system project << LF ++ LF in
   let ostream := ostream << "Compiler : " << compiler_id project << " "
                          << compiler_version project << LF ++ LF in
   let ostream := ostream << "Source   : " << git_describe project <<' LF_char in
   let ostream := ostream << "Commit   : " << git_commit_hash project <<' LF_char in
   ostream)%ios.
End Reporter.
End tmp.

Module exe.
Section Reporter.
(** The macros of [buildinfo_bin.hpp]. *)
Variable buildinfo_bin : Metadata.
Let BUILD_TYPE : string := build_type buildinfo_bin.
Let BUILD_TIMESTAMP : string := build_timestamp buildinfo_bin.
Let BUILD_USER : string := build_user buildinfo_bin.
Let BUILD_HOST : string := build_host buildinfo_bin.
Let TARGET_SYSTEM : string := target_system buildinfo_bin.
Let TARGET_ARCHITECTURE : string := target_architecture buildinfo_bin.
Let HOST_SYSTEM : string := host_system buildinfo_bin.
Let COMPILER_ID : string := compiler_id buildinfo_bin.
Let COMPILER_VERSION : string := compiler_version buildinfo_bin.
Let GIT_DESCRIBE : string := git_describe buildinfo_bin.
Let GIT_COMMIT_HASH : string := git_commit_hash buildinfo_bin.

Definition DumpBuildInfo (ostream : ios.ostream) : ios.ostream :=
  (ostream << "Build Information" ++ LF ++
              "-----------------" ++ LF ++
              "Build    : "
           << BUILD_TYPE << " (" << BUILD_TIMESTAMP
           << ")" ++ LF ++
              "User     : "
           << BUILD_USER << " @ " << BUILD_HOST
           << LF ++ LF ++
              "Platform : "
           << TARGET_SYSTEM << " " << TARGET_ARCHITECTURE
           << LF ++
              "Host     : "
           << HOST_SYSTEM
           << LF ++ LF ++
              "Compiler : "
           << COMPILER_ID << " " << COMPILER_VERSION
           << LF ++ LF ++
              "Source   : "
           << GIT_DESCRIBE <<' LF_char
           << "Commit   : " << GIT_COMMIT_HASH <<' LF_char)%ios.
End Reporter.
End exe.

End stateful.

(** ** Facts on text *)
Module TextFacts.
Import Text.

Lemma append_nil_r (s : string) : s ++ "" = s.
Proof. induction s as [|c s IH]; simpl; [reflexivity | now rewrite IH]. Qed.

Lemma append_assoc (a b c : string) : (a ++ b) ++ c = a ++ (b ++ c).
Proof. induction a as [|x a IH]; simpl; [reflexivity | now rewrite IH]. Qed.

Lemma length_append (a b : string) :
  String.length (a ++ b) = String.length a + String.length b.
Proof. induction a as [|x a IH]; simpl; [reflexivity | now rewrite IH]. Qed.

Lemma append_not_empty (a : string) (c : ascii) (b : string) :
  a ++ String c b <> EmptyString.
Proof. destruct a; discriminate. Qed.

Lemma skip_append (a b : string) : skip (String.length a) (a ++ b) = b.
Proof. induction a as [|x a IH]; simpl; [now destruct b | exact IH]. Qed.

Lemma take_append (a b : string) : take (String.length a) (a ++ b) = a.
Proof. induction a as [|x a IH]; simpl; [reflexivity | now rewrite IH]. Qed.

Lemma delete_span_middle (a v b : string) :
  delete_span (String.length a) (String.length v) (a ++ v ++ b) = a ++ b.
Proof.
  unfold delete_span. rewrite take_append. f_equal.
  rewrite <- length_append, <- append_assoc.
  apply skip_append.
Qed.

Lemma starts_with_append (p a b : string) :
  starts_with p a = true -> starts_with p (a ++ b) = true.
Proof.
  revert a. induction p as [|x p IH]; intros [|y a]; simpl; try easy.
  intros H. apply andb_true_iff in H as [-> H]. simpl. now apply IH.
Qed.

Lemma contains_append_l (p a b : string) :
  contains p a = true -> contains p (a ++ b) = true.
Proof.
  induction a as [|y a IH].
  - destruct p; simpl; [intros _ | discriminate]. now destruct b.
  - cbn [contains append]. intros H. apply orb_true_iff in H as [H|H].
    + apply (starts_with_append _ _ b) in H. cbn [append] in H. now rewrite H.
    + rewrite (IH H). apply orb_true_r.
Qed.

Lemma contains_append_r (p a b : string) :
  contains p b = true -> contains p (a ++ b) = true.
Proof.
  intros H. induction a as [|y a IH]; [exact H|].
  cbn [contains append]. rewrite IH. apply orb_true_r.
Qed.

Lemma contains_unlines (p l : string) (ls : list string) :
  In l ls -> contains p l = true -> contains p (unlines ls) = true.
Proof.
  intros Hin Hl. induction ls as [|l' ls IH]; [destruct Hin|].
  cbn [unlines]. destruct Hin as [->|Hin].
  - now apply contains_append_l.
  - apply contains_append_r, contains_append_r. now apply IH.
Qed.

(** A character foreign to [p] cuts every match of [p]. *)
Lemma starts_with_cut (p a : string) (c : ascii) (b : string) :
  mem c p = false ->
  starts_with p (a ++ String c b) = starts_with p a.
Proof.
  revert a. induction p as [|x p IH]; intros a Hc; [now destruct a|].
  cbn [mem] in Hc. apply orb_false_iff in Hc as [Hx Hp].
  destruct a as [|y a]; cbn [append starts_with].
  - rewrite Ascii.eqb_sym, Hx. reflexivity.
  - now rewrite IH.
Qed.

Lemma starts_with_longer (q r s : string) :
  starts_with q s = false -> starts_with (q ++ r) s = false.
Proof.
  revert s. induction q as [|x q IH]; intros s; [discriminate|].
  destruct s as [|y s]; cbn [append starts_with]; [reflexivity|].
  destruct (Ascii.eqb x y); [apply IH | reflexivity].
Qed.

Lemma occurrences_none (p s : string) (c : ascii) :
  occurrences p (String c s) = 0 ->
  starts_with p (String c s) = false /\ occurrences p s = 0.
Proof.
  cbn [occurrences]. destruct (starts_with p (String c s)); [discriminate|].
  now split.
Qed.

(** A field that does not hold the word [q], followed by a character
    foreign to [q], holds no start of a match of a text beginning
    with [q]. *)
Lemma occurrences_skip_field (q r f : string) (c : ascii) (rest : string) :
  mem c q = false ->
  occurrences q f = 0 ->
  occurrences (q ++ r) (f ++ String c rest) = occurrences (q ++ r) (String c rest).
Proof.
  intros Hc. induction f as [|y f IH]; intros Hf; [reflexivity|].
  apply occurrences_none in Hf as [Hy Hf].
  change (String y f ++ String c rest) with (String y (f ++ String c rest)).
  cbn [occurrences]. rewrite (IH Hf).
  rewrite starts_with_longer; [reflexivity|].
  change (String y (f ++ String c rest)) with (String y f ++ String c rest).
  now rewrite starts_with_cut.
Qed.

Lemma occurrences_skip_field_word (q f : string) (c : ascii) (rest : string) :
  mem c q = false ->
  occurrences q f = 0 ->
  occurrences q (f ++ String c rest) = occurrences q (String c rest).
Proof.
  intros Hc Hf. pose proof (occurrences_skip_field q "" f c rest Hc Hf) as H.
  now rewrite append_nil_r in H.
Qed.

End TextFacts.

(** ** Facts on [int] *)
Module IntFacts.
Import Int.

Lemma wrap_representable (z : Z) : representable (wrap z).
Proof.
  unfold representable, wrap, min, max, modulus.
  pose proof (Z.mod_pos_bound (z - - 2 ^ 31) (2 ^ 32) ltac:(lia)). lia.
Qed.

Lemma wrap_congruent (z : Z) : ((wrap z - z) mod modulus = 0)%Z.
Proof.
  unfold wrap, min, modulus.
  rewrite (Z.mod_eq (z - - 2 ^ 31) (2 ^ 32)) by lia.
  replace (z - - 2 ^ 31 - 2 ^ 32 * ((z - - 2 ^ 31) / 2 ^ 32) + - 2 ^ 31 - z)%Z
    with ((- ((z - - 2 ^ 31) / 2 ^ 32)) * 2 ^ 32)%Z by lia.
  apply Z.mod_mul. lia.
Qed.

Lemma wrap_id (z : Z) : representable z -> wrap z = z.
Proof.
  unfold representable, wrap, min, max, modulus. intros H.
  rewrite Z.mod_small; lia.
Qed.

End IntFacts.

(** ** Facts on the reporters *)

Ltac stream_norm :=
  cbv beta delta [tmp.DumpBuildInfo exe.DumpBuildInfo put put_char
                  lib_output exe_output body_lines version_line] zeta;
  cbn [Text.unlines];
  repeat rewrite TextFacts.append_assoc;
  cbn [append LF].

Lemma lib_output_lines (m : Metadata) :
  lib_output m =
  Text.unlines ("Build Information" :: "-----------------" ::
                ("Version  : " ++ version m) :: body_lines m).
Proof. stream_norm. reflexivity. Qed.

Lemma exe_output_lines (m : Metadata) :
  exe_output m =
  Text.unlines ("Build Information" :: "-----------------" :: body_lines m).
Proof. stream_norm. reflexivity. Qed.

Lemma lib_appends (m : Metadata) (os : Ostream) :
  tmp.DumpBuildInfo m os = os ++ lib_output m.
Proof. stream_norm. reflexivity. Qed.

Lemma exe_appends (m : Metadata) (os : Ostream) :
  exe.DumpBuildInfo m os = os ++ exe_output m.
Proof. stream_norm. reflexivity. Qed.

Lemma written_append (os s : string) : written os (os ++ s) = s.
Proof. apply TextFacts.skip_append. Qed.

Lemma title_skip_field (f : string) (c : ascii) (rest : string) :
  Text.mem c "Build" = false ->
  Text.occurrences "Build" f = 0 ->
  Text.occurrences "Build Information" (f ++ String c rest) =
  Text.occurrences "Build Information" (String c rest).
Proof. exact (TextFacts.occurrences_skip_field "Build" " Information" f c rest). Qed.

Lemma label_in_line (label l : string) (m : Metadata) :
  In l ("Build Information" :: "-----------------" ::
        ("Version  : " ++ version m) :: body_lines m) ->
  Text.contains label l = true ->
  Text.contains label (lib_output m) = true.
Proof. rewrite lib_output_lines. apply TextFacts.contains_unlines. Qed.

Lemma sample_release_free_of (word : string) :
  In word ["Build"; "User"; "Platform"; "Host"; "Compiler"; "Source"; "Commit"] ->
  free_of word sample_release.
Proof.
  intros Hw f Hf. cbn [In] in Hw. cbn [fields In sample_release] in Hf.
  repeat match goal with
         | H : _ \/ _ |- _ => destruct H as [<-|H]
         | H : False |- _ => destruct H
         end; reflexivity.
Qed.

Ltac in_fields H := apply H; cbn [fields In]; tauto.

(** Counting a one-word label: the literal text is searched by
    computation, each field is stepped over. *)
Ltac count_word H :=
  stream_norm;
  repeat (simpl;
          rewrite TextFacts.occurrences_skip_field_word
            by first [reflexivity | in_fields H]);
  reflexivity.

Ltac count_title H :=
  stream_norm;
  repeat (simpl;
          rewrite title_skip_field by first [reflexivity | in_fields H]);
  reflexivity.

(** ** Facts on the build-information script *)
Module ScriptFacts.
Import buildinfo_script.

Lemma is_off_empty : is_off "" = true.
Proof. reflexivity. Qed.

Lemma build_type_not_empty (i : Invocation) : BUILD_TYPE (generate i) <> "".
Proof.
  unfold generate.
  destruct (GIT_FOUND i && dot_git_exists i); cbn [BUILD_TYPE];
    destruct (is_off (TOUPPER (CMAKE_BUILD_TYPE i))) eqn:Hoff;
    try discriminate; intros Hempty; rewrite Hempty in Hoff; discriminate.
Qed.

Lemma build_type_unknown (i : Invocation) :
  CMAKE_BUILD_TYPE i = "" -> BUILD_TYPE (generate i) = "UNKNOWN".
Proof.
  intros H. unfold generate. rewrite H.
  destruct (GIT_FOUND i && dot_git_exists i); reflexivity.
Qed.

Lemma timestamp_not_empty (i : Invocation) : BUILD_TIMESTAMP (generate i) <> "".
Proof.
  unfold generate.
  destruct (GIT_FOUND i && dot_git_exists i); cbn [BUILD_TIMESTAMP TIMESTAMP];
    apply TextFacts.append_not_empty.
Qed.

Lemma git_sentinels (i : Invocation) :
  GIT_FOUND i && dot_git_exists i = false ->
  GIT_COMMIT_HASH (generate i) = "unknown" /\ GIT_DESCRIBE (generate i) = "no-git".
Proof. intros H. unfold generate. rewrite H. split; reflexivity. Qed.

Lemma user_sentinel (i : Invocation) :
  ENV_USER i = None -> ENV_USERNAME i = None -> BUILD_USER (generate i) = "unknown".
Proof.
  intros H1 H2. unfold generate. rewrite H1, H2.
  destruct (GIT_FOUND i && dot_git_exists i); reflexivity.
Qed.

Lemma passed_through (i : Invocation) :
  BUILD_HOST (generate i) = CMAKE_HOST_SYSTEM i /\
  TARGET_SYSTEM (generate i) = CMAKE_SYSTEM_NAME i /\
  TARGET_ARCHITECTURE (generate i) = CMAKE_SYSTEM_PROCESSOR i /\
  HOST_SYSTEM (generate i) = CMAKE_HOST_SYSTEM_NAME i /\
  COMPILER_ID (generate i) = CMAKE_CXX_COMPILER_ID i /\
  COMPILER_VERSION (generate i) = CMAKE_CXX_COMPILER_VERSION i.
Proof.
  unfold generate. destruct (GIT_FOUND i && dot_git_exists i); repeat split.
Qed.

End ScriptFacts.

(** ** Facts on streams with their state *)
Module IosFacts.
Import ios.

Lemma skip_skip (a b : nat) (s : string) :
  Text.skip b (Text.skip a s) = Text.skip (a + b) s.
Proof.
  revert s. induction a as [|a IH]; intros s; [reflexivity|].
  destruct s as [|c s]; cbn [Text.skip Nat.add].
  - now destruct b.
  - apply IH.
Qed.

Lemma skip_empty (n : nat) : Text.skip n "" = "".
Proof. now destruct n. Qed.

Lemma emit_emit (os : ostream) (a b : string) :
  emit (emit os a) b = emit os (a ++ b).
Proof.
  unfold emit. cbn [before beyond fill adjust_left].
  now rewrite TextFacts.append_assoc, skip_skip, TextFacts.length_append.
Qed.

Lemma pad_no_width (os : ostream) (seq : string) :
  width os = 0 -> pad os seq = seq.
Proof.
  intros H. unfold pad. rewrite H. cbn [Nat.sub fill_chars].
  destruct (adjust_left os); [apply TextFacts.append_nil_r | reflexivity].
Qed.

Lemma insert_good (os : ostream) (seq : string) :
  good os = true -> insert os seq = emit os (pad os seq).
Proof. intros H. unfold insert. now rewrite H. Qed.

Lemma insert_emit (os : ostream) (a seq : string) :
  insert (emit os a) seq = emit os (a ++ seq).
Proof.
  unfold insert. cbn [emit good].
  rewrite pad_no_width by reflexivity. apply emit_emit.
Qed.

Lemma insert_not_good (os : ostream) (seq : string) :
  good os = false -> insert os seq = os.
Proof. intros H. unfold insert. now rewrite H. Qed.

End IosFacts.

Ltac stateful_norm :=
  cbv beta delta [stateful.tmp.DumpBuildInfo stateful.exe.DumpBuildInfo
                  ios.insert_char] zeta.

(** The library reporter on a good stream: one padded title line, then
    plain text. *)
Lemma stateful_lib_emits (m : Metadata) (os : ios.ostream) :
  ios.good os = true ->
  stateful.tmp.DumpBuildInfo m os =
  ios.emit os (ios.pad os ("Build Information" ++ LF) ++
               Text.unlines ("-----------------" ::
                             ("Version  : " ++ version m) :: body_lines m)).
Proof.
  intros Hgood. stateful_norm.
  rewrite (IosFacts.insert_good os) by exact Hgood.
  rewrite !IosFacts.insert_emit.
  f_equal. unfold body_lines. cbn [Text.unlines].
  repeat rewrite TextFacts.append_assoc. reflexivity.
Qed.

(** The executable's reporter on a good stream: its first item runs from
    the title to the label of the build line. *)
Lemma stateful_exe_emits (m : Metadata) (os : ios.ostream) :
  ios.good os = true ->
  stateful.exe.DumpBuildInfo m os =
  ios.emit os (ios.pad os ("Build Information" ++ LF ++
                           "-----------------" ++ LF ++ "Build    : ") ++
               build_type m ++ " (" ++ build_timestamp m ++ ")" ++ LF ++
               Text.unlines (tl (body_lines m))).
Proof.
  intros Hgood. stateful_norm.
  rewrite (IosFacts.insert_good os) by exact Hgood.
  rewrite !IosFacts.insert_emit.
  f_equal. unfold body_lines. cbn [tl Text.unlines].
  repeat rewrite TextFacts.append_assoc. reflexivity.
Qed.

Lemma stateful_not_good (m : Metadata) (os : ios.ostream) :
  ios.good os = false ->
  stateful.tmp.DumpBuildInfo m os = os /\ stateful.exe.DumpBuildInfo m os = os.
Proof.
  intros H. stateful_norm.
  repeat rewrite (IosFacts.insert_not_good os) by exact H. now split.
Qed.

(** On a good stream with no pending width that stands at the end of its
    sink, the reporters do to the sink's characters what they do to plain
    text. *)
Lemma stateful_agrees_with_text (m : Metadata) (os : ios.ostream) :
  ios.good os = true -> ios.width os = 0 -> ios.beyond os = "" ->
  ios.sequence (stateful.tmp.DumpBuildInfo m os) = tmp.DumpBuildInfo m (ios.sequence os) /\
  ios.sequence (stateful.exe.DumpBuildInfo m os) = exe.DumpBuildInfo m (ios.sequence os).
Proof.
  intros Hgood Hwidth Hend.
  rewrite stateful_lib_emits, stateful_exe_emits by exact Hgood.
  rewrite !IosFacts.pad_no_width by exact Hwidth.
  unfold ios.sequence, ios.emit. cbn [ios.before ios.beyond].
  rewrite Hend, !IosFacts.skip_empty, !TextFacts.append_nil_r.
  rewrite lib_appends, exe_appends, lib_output_lines, exe_output_lines.
  unfold body_lines. cbn [tl Text.unlines].
  repeat rewrite TextFacts.append_assoc. split; reflexivity.
Qed.


(** ** Properties of [tmp::add] *)

(** C1: for all representable [left] and [right], [add left right] is the
    mathematical sum reduced modulo [2^32] into the signed range: it is
    representable, congruent to [left + right] modulo [2^32], and equal to
    [left + right] whenever that is representable; [add 1 2 = 3] and
    [add (-5) 5 = 0]. *)
Theorem add_wraparound_sum (left right : Z) :
  Int.representable left -> Int.representable right ->
  tmp.add left right = Int.wrap (left + right) /\
  Int.representable (tmp.add left right) /\
  ((tmp.add left right - (left + right)) mod Int.modulus = 0)%Z /\
  (Int.representable (left + right) -> tmp.add left right = (left + right)%Z) /\
  tmp.add 1 2 = 3%Z /\ tmp.add (-5) 5 = 0%Z.
Proof.
  intros _ _. unfold tmp.add. split; [reflexivity|]. split; [|split; [|split]].
  - apply IntFacts.wrap_representable.
  - apply IntFacts.wrap_congruent.
  - apply IntFacts.wrap_id.
  - split; reflexivity.
Qed.

Lemma add_wraparound_sum_witness :
  tmp.add Int.max 1 = Int.min /\ tmp.add 1 2 = 3%Z.
Proof.
  destruct (add_wraparound_sum Int.max 1) as (H & _ & _ & _ & H12 & _).
  - unfold Int.representable, Int.min, Int.max; lia.
  - unfold Int.representable, Int.min, Int.max; lia.
  - split; [rewrite H; reflexivity | exact H12].
Defined.

(** ** Properties of the generated metadata *)

(** C2: the claim holds of the fields for which the script has a fallback
    and fails, by a defect of the script, for those it copies: run for the
    cross build whose toolchain names no processor, the script turns the
    empty [CMAKE_BUILD_TYPE] of a sibling run into ["UNKNOWN"] and the
    missing Git into ["unknown"] and ["no-git"], but writes the empty
    [CMAKE_SYSTEM_PROCESSOR] to the header as it is; the record then has an
    empty field and the platform line of the report ends after the target
    system. *)
Theorem unset_processor_gets_no_sentinel :
  buildinfo_script.TARGET_ARCHITECTURE (buildinfo_script.generate cross_build) = "" /\
  buildinfo_script.BUILD_TYPE
    (buildinfo_script.generate (with_build_type cross_build "")) = "UNKNOWN" /\
  buildinfo_script.GIT_COMMIT_HASH (buildinfo_script.generate cross_build) = "unknown" /\
  buildinfo_script.GIT_DESCRIBE (buildinfo_script.generate cross_build) = "no-git" /\
  buildinfo_script.BUILD_USER (buildinfo_script.generate cross_build) = "unknown" /\
  complete cross_build_metadata = false /\
  Text.contains ("Platform : Generic " ++ LF)
                (written "" (tmp.DumpBuildInfo cross_build_metadata "")) = true.
Proof. repeat split. Qed.

(** ** Properties of the reporters *)

(** C3: for every metadata record, what the library-side [DumpBuildInfo]
    appends is exactly, in this order: the title line, the underline, the
    version line, the build line, the user line, a blank line, the platform
    line, the host line, a blank line, the compiler line, a blank line, the
    source line and the commit line, each ended by a line feed. *)
Theorem lib_report_sections (project : Metadata) (os : Ostream) :
  tmp.DumpBuildInfo project os =
  os ++ Text.unlines
    [ "Build Information";
      "-----------------";
      "Version  : " ++ version project;
      "Build    : " ++ build_type project ++ " (" ++ build_timestamp project ++ ")";
      "User     : " ++ build_user project ++ " @ " ++ build_host project;
      "";
      "Platform : " ++ target_system project ++ " " ++ target_architecture project;
      "Host     : " ++ host_system project;
      "";
      "Compiler : " ++ compiler_id project ++ " " ++ compiler_version project;
      "";
      "Source   : " ++ git_describe project;
      "Commit   : " ++ git_commit_hash project ].
Proof. stream_norm. reflexivity. Qed.

(** C4: for every metadata record, the executable-local reporter writes the
    library-side report with the version line deleted: the version line sits
    36 characters into the library report, and removing that span leaves the
    executable's output. *)
Theorem exe_report_omits_version_line (m : Metadata) (os : Ostream) :
  let off := String.length os + 36 in
  let len := String.length (version_line m) in
  Text.take len (Text.skip off (tmp.DumpBuildInfo m os)) = version_line m /\
  exe.DumpBuildInfo m os = Text.delete_span off len (tmp.DumpBuildInfo m os).
Proof.
  cbv zeta.
  set (head := "Build Information" ++ LF ++ "-----------------" ++ LF).
  assert (Hlen : String.length os + 36 = String.length (os ++ head))
    by (rewrite TextFacts.length_append; reflexivity).
  assert (Hlib : tmp.DumpBuildInfo m os =
                 (os ++ head) ++ version_line m ++ Text.unlines (body_lines m))
    by (subst head; stream_norm; reflexivity).
  assert (Hexe : exe.DumpBuildInfo m os =
                 (os ++ head) ++ Text.unlines (body_lines m))
    by (subst head; stream_norm; reflexivity).
  rewrite Hlib, Hexe, Hlen. split.
  - rewrite TextFacts.skip_append. apply TextFacts.take_append.
  - symmetry. apply TextFacts.delete_span_middle.
Qed.

(** C5, as the code has it: every section label occurs in the report; if no
    metadata field holds the word "Build", the title "Build Information"
    occurs exactly once and "Build" exactly twice (the label of the build
    line and the first word of the title); each of "User", "Platform",
    "Host", "Compiler", "Source" and "Commit" occurs exactly once when no
    metadata field holds it. *)
Theorem lib_report_label_counts (m : Metadata) (os : Ostream) :
  let out := written os (tmp.DumpBuildInfo m os) in
  (forall label, In label section_labels -> Text.contains label out = true) /\
  (free_of "Build" m ->
   Text.occurrences "Build Information" out = 1 /\ Text.occurrences "Build" out = 2) /\
  (forall label,
     In label ["User"; "Platform"; "Host"; "Compiler"; "Source"; "Commit"] ->
     free_of label m -> Text.occurrences label out = 1).
Proof.
  cbv zeta. rewrite lib_appends, written_append. split; [|split].
  - intros label Hin. cbn [section_labels In] in Hin.
    destruct Hin as [<-|[<-|[<-|[<-|[<-|[<-|[<-|[<-|[]]]]]]]]].
    + apply (label_in_line _ "Build Information"); [cbn; tauto | reflexivity].
    + apply (label_in_line _ "Build Information"); [cbn; tauto | reflexivity].
    + apply (label_in_line _ ("User     : " ++ build_user m ++ " @ " ++ build_host m));
        [cbn; tauto | now apply TextFacts.contains_append_l].
    + apply (label_in_line _ ("Platform : " ++ target_system m ++ " " ++ target_architecture m));
        [cbn; tauto | now apply TextFacts.contains_append_l].
    + apply (label_in_line _ ("Host     : " ++ host_system m));
        [cbn; tauto | now apply TextFacts.contains_append_l].
    + apply (label_in_line _ ("Compiler : " ++ compiler_id m ++ " " ++ compiler_version m));
        [cbn; tauto | now apply TextFacts.contains_append_l].
    + apply (label_in_line _ ("Source   : " ++ git_describe m));
        [cbn; tauto | now apply TextFacts.contains_append_l].
    + apply (label_in_line _ ("Commit   : " ++ git_commit_hash m));
        [cbn; tauto | now apply TextFacts.contains_append_l].
  - intros H. split; [count_title H | count_word H].
  - intros label Hin H. cbn [In] in Hin.
    destruct Hin as [<-|[<-|[<-|[<-|[<-|[<-|[]]]]]]]; count_word H.
Qed.

Lemma lib_report_label_counts_witness :
  Text.occurrences "Build Information" (written "" (tmp.DumpBuildInfo sample_release "")) = 1 /\
  Text.occurrences "Build" (written "" (tmp.DumpBuildInfo sample_release "")) = 2 /\
  Text.occurrences "Commit" (written "" (tmp.DumpBuildInfo sample_release "")) = 1.
Proof.
  destruct (lib_report_label_counts sample_release "") as (_ & Hbuild & Hword).
  destruct Hbuild as [Htitle Hb].
  - apply sample_release_free_of. cbn; tauto.
  - split; [exact Htitle | split; [exact Hb |]].
    apply Hword; [cbn; tauto | apply sample_release_free_of; cbn; tauto].
Defined.

(** C5 as the specification words it fails: "Build" is also the first word
    of the title, so it occurs twice in the report of a record none of
    whose fields mentions it. *)
Lemma build_label_occurs_twice :
  ~ (forall label, In label section_labels ->
       Text.occurrences label (written "" (tmp.DumpBuildInfo sample_release "")) = 1).
Proof.
  intros H. specialize (H "Build" ltac:(cbn; tauto)). vm_compute in H. discriminate.
Qed.

(** A field may itself hold a label: a build host named "BuildHost" adds
    one occurrence of "Host" and one of "Build". *)
Example label_inside_field :
  Text.occurrences "Host"
    (lib_output {| version := "0.1.0"; build_type := "DEBUG";
                   build_timestamp := "2024-01-01 00:00:00 UTC";
                   build_user := "dev"; build_host := "BuildHost";
                   target_system := "Linux"; target_architecture := "x86_64";
                   host_system := "Linux"; compiler_id := "GNU";
                   compiler_version := "13.2.0"; git_describe := "v1.0";
                   git_commit_hash := "abc1234" |}) = 2.
Proof. reflexivity. Qed.

(** C6: with [build_type = "RELEASE"],
    [build_timestamp = "2024-01-01 00:00:00 UTC"] and
    [git_commit_hash = "unknown"], the report contains
    ["Build    : RELEASE (2024-01-01 00:00:00 UTC)"] and
    ["Commit   : unknown"]. *)
Theorem release_scenario (m : Metadata) (os : Ostream) :
  build_type m = "RELEASE" ->
  build_timestamp m = "2024-01-01 00:00:00 UTC" ->
  git_commit_hash m = "unknown" ->
  Text.contains "Build    : RELEASE (2024-01-01 00:00:00 UTC)"
                (written os (tmp.DumpBuildInfo m os)) = true /\
  Text.contains "Commit   : unknown" (written os (tmp.DumpBuildInfo m os)) = true.
Proof.
  intros Htype Htime Hhash. rewrite lib_appends, written_append. split.
  - apply (label_in_line _ ("Build    : " ++ build_type m ++ " (" ++ build_timestamp m ++ ")"));
      [cbn; tauto | rewrite Htype, Htime; reflexivity].
  - apply (label_in_line _ ("Commit   : " ++ git_commit_hash m));
      [cbn; tauto | rewrite Hhash; reflexivity].
Qed.

Lemma release_scenario_witness :
  Text.contains "Build    : RELEASE (2024-01-01 00:00:00 UTC)"
                (written "" (tmp.DumpBuildInfo sample_release "")) = true /\
  Text.contains "Commit   : unknown"
                (written "" (tmp.DumpBuildInfo sample_release "")) = true.
Proof. apply (release_scenario sample_release ""); reflexivity. Defined.

(** C7 as the specification words it fails: the same record written to two
    fresh string streams, one of them after [std::setw(20)], gives different
    bytes, and on that stream the second call does not repeat the first. *)
Lemma pending_width_changes_the_bytes :
  written (ios.before ios.fresh)
          (ios.before (stateful.tmp.DumpBuildInfo sample_release ios.fresh)) <>
  written (ios.before (ios.setw 20 ios.fresh))
          (ios.before (stateful.tmp.DumpBuildInfo sample_release (ios.setw 20 ios.fresh))) /\
  written (ios.before (stateful.tmp.DumpBuildInfo sample_release (ios.setw 20 ios.fresh)))
          (ios.before (stateful.tmp.DumpBuildInfo sample_release
                         (stateful.tmp.DumpBuildInfo sample_release (ios.setw 20 ios.fresh)))) <>
  written (ios.before (ios.setw 20 ios.fresh))
          (ios.before (stateful.tmp.DumpBuildInfo sample_release (ios.setw 20 ios.fresh))).
Proof. split; intros H; vm_compute in H; discriminate. Qed.

(** C7, as the code has it: on a good stream the bytes the library-side
    [DumpBuildInfo] writes are the title line padded to the pending field
    width, followed by the other twelve lines of the record's report.  So
    they are the report itself when no width is pending, they are the same
    for two good streams that agree on width, fill character and
    adjustment, and a further call on the same stream writes exactly the
    report, because the first insertion resets the width. *)
Theorem lib_bytes_fixed_by_record_and_format (m : Metadata) (os os' : ios.ostream) :
  ios.good os = true ->
  let bytes (s : ios.ostream) :=
    written (ios.before s) (ios.before (stateful.tmp.DumpBuildInfo m s)) in
  let rest :=
    Text.unlines
      [ "-----------------";
        "Version  : " ++ version m;
        "Build    : " ++ build_type m ++ " (" ++ build_timestamp m ++ ")";
        "User     : " ++ build_user m ++ " @ " ++ build_host m;
        "";
        "Platform : " ++ target_system m ++ " " ++ target_architecture m;
        "Host     : " ++ host_system m;
        "";
        "Compiler : " ++ compiler_id m ++ " " ++ compiler_version m;
        "";
        "Source   : " ++ git_describe m;
        "Commit   : " ++ git_commit_hash m ] in
  bytes os = ios.pad os ("Build Information" ++ LF) ++ rest /\
  (ios.width os = 0 -> bytes os = "Build Information" ++ LF ++ rest) /\
  (ios.good os' = true -> ios.width os' = ios.width os ->
   ios.fill os' = ios.fill os -> ios.adjust_left os' = ios.adjust_left os ->
   bytes os' = bytes os) /\
  bytes (stateful.tmp.DumpBuildInfo m os) = "Build Information" ++ LF ++ rest.
Proof.
  intros Hgood. cbv zeta.
  assert (Hbytes : forall s, ios.good s = true ->
            written (ios.before s) (ios.before (stateful.tmp.DumpBuildInfo m s)) =
            ios.pad s ("Build Information" ++ LF) ++
            Text.unlines ("-----------------" ::
                          ("Version  : " ++ version m) :: body_lines m)).
  { intros s Hs. rewrite stateful_lib_emits by exact Hs.
    cbn [ios.emit ios.before]. apply written_append. }
  split; [|split; [|split]].
  - now rewrite Hbytes.
  - intros Hw. rewrite Hbytes by exact Hgood.
    rewrite IosFacts.pad_no_width by exact Hw.
    now rewrite TextFacts.append_assoc.
  - intros Hgood' Hw Hf Ha. rewrite !Hbytes by assumption.
    unfold ios.pad. now rewrite Hw, Hf, Ha.
  - rewrite (stateful_lib_emits m os) by exact Hgood.
    rewrite Hbytes by reflexivity.
    rewrite IosFacts.pad_no_width by reflexivity.
    now rewrite TextFacts.append_assoc.
Qed.

Lemma lib_bytes_fixed_by_record_and_format_witness :
  written (ios.before (ios.setw 20 ios.fresh))
          (ios.before (stateful.tmp.DumpBuildInfo sample_release (ios.setw 20 ios.fresh))) =
  ios.pad (ios.setw 20 ios.fresh) ("Build Information" ++ LF) ++
  Text.skip 18 (lib_output sample_release).
Proof.
  destruct (lib_bytes_fixed_by_record_and_format
              sample_release (ios.setw 20 ios.fresh) ios.fresh) as [H _];
    [reflexivity | rewrite H; reflexivity].
Defined.

(** C8: for every metadata record and every stream, the library-side
    [DumpBuildInfo] appends at least one character. *)
Theorem lib_report_nonempty (m : Metadata) (os : Ostream) :
  written os (tmp.DumpBuildInfo m os) <> EmptyString /\
  String.length os < String.length (tmp.DumpBuildInfo m os).
Proof.
  rewrite lib_appends, written_append, TextFacts.length_append.
  rewrite lib_output_lines. cbn [Text.unlines append String.length]. split.
  - discriminate.
  - lia.
Qed.

(** C9: whatever [argc] and [argv] are, [main] returns 0 and leaves on
    standard output what was there before, followed by the thirteen lines
    of the library-side report for the library's header and then by the
    twelve lines of the executable's own report for its header; the
    headers are untouched. *)
Theorem main_prints_report_and_exits_0 (argc : Z) (argv : list string) (p : exe.Process) :
  let lib := exe.buildinfo_lib p in
  let bin := exe.buildinfo_bin p in
  fst (exe.main argc argv p) = 0%Z /\
  exe.cout (snd (exe.main argc argv p)) =
    exe.cout p ++
    Text.unlines
      [ "Build Information";
        "-----------------";
        "Version  : " ++ version lib;
        "Build    : " ++ build_type lib ++ " (" ++ build_timestamp lib ++ ")";
        "User     : " ++ build_user lib ++ " @ " ++ build_host lib;
        "";
        "Platform : " ++ target_system lib ++ " " ++ target_architecture lib;
        "Host     : " ++ host_system lib;
        "";
        "Compiler : " ++ compiler_id lib ++ " " ++ compiler_version lib;
        "";
        "Source   : " ++ git_describe lib;
        "Commit   : " ++ git_commit_hash lib ] ++
    Text.unlines
      [ "Build Information";
        "-----------------";
        "Build    : " ++ build_type bin ++ " (" ++ build_timestamp bin ++ ")";
        "User     : " ++ build_user bin ++ " @ " ++ build_host bin;
        "";
        "Platform : " ++ target_system bin ++ " " ++ target_architecture bin;
        "Host     : " ++ host_system bin;
        "";
        "Compiler : " ++ compiler_id bin ++ " " ++ compiler_version bin;
        "";
        "Source   : " ++ git_describe bin;
        "Commit   : " ++ git_commit_hash bin ] /\
  exe.buildinfo_lib (snd (exe.main argc argv p)) = exe.buildinfo_lib p /\
  exe.buildinfo_bin (snd (exe.main argc argv p)) = exe.buildinfo_bin p.
Proof.
  cbv zeta. unfold exe.main, exe.with_cout.
  cbn [fst snd exe.cout exe.buildinfo_lib exe.buildinfo_bin].
  rewrite exe_appends, lib_appends, TextFacts.append_assoc.
  rewrite lib_output_lines, exe_output_lines. repeat split.
Qed.

(** C10 as the specification words it fails: a string stream built with
    initial contents has its put position at the start, and the report is
    written over them. *)
Lemma initial_contents_are_overwritten :
  Text.take (String.length "previous contents")
            (ios.sequence (stateful.tmp.DumpBuildInfo sample_release
                             (ios.holding "previous contents")))
  <> "previous contents".
Proof. intros H. vm_compute in H. discriminate. Qed.

(** C10, as the code has it: both reporters write at the put position.  On
    a good stream the characters before the put position stay and are
    followed by the written text, which takes the place of as many
    characters as the sink held from there on; a stream that stands at the
    end of its sink therefore keeps all it held.  The written text is the
    report of the record, its first item padded to the pending width,
    whatever the sink held.  A stream that is not good is left as it is. *)
Theorem reporters_write_at_put_position (m : Metadata) (os : ios.ostream) :
  let lib_text :=
    ios.pad os ("Build Information" ++ LF) ++
    Text.unlines
      [ "-----------------";
        "Version  : " ++ version m;
        "Build    : " ++ build_type m ++ " (" ++ build_timestamp m ++ ")";
        "User     : " ++ build_user m ++ " @ " ++ build_host m;
        "";
        "Platform : " ++ target_system m ++ " " ++ target_architecture m;
        "Host     : " ++ host_system m;
        "";
        "Compiler : " ++ compiler_id m ++ " " ++ compiler_version m;
        "";
        "Source   : " ++ git_describe m;
        "Commit   : " ++ git_commit_hash m ] in
  let exe_text :=
    ios.pad os ("Build Information" ++ LF ++ "-----------------" ++ LF ++ "Build    : ") ++
    build_type m ++ " (" ++ build_timestamp m ++ ")" ++ LF ++
    Text.unlines
      [ "User     : " ++ build_user m ++ " @ " ++ build_host m;
        "";
        "Platform : " ++ target_system m ++ " " ++ target_architecture m;
        "Host     : " ++ host_system m;
        "";
        "Compiler : " ++ compiler_id m ++ " " ++ compiler_version m;
        "";
        "Source   : " ++ git_describe m;
        "Commit   : " ++ git_commit_hash m ] in
  (ios.good os = true ->
   ios.before (stateful.tmp.DumpBuildInfo m os) = ios.before os ++ lib_text /\
   ios.beyond (stateful.tmp.DumpBuildInfo m os) =
     Text.skip (String.length lib_text) (ios.beyond os) /\
   ios.before (stateful.exe.DumpBuildInfo m os) = ios.before os ++ exe_text /\
   ios.beyond (stateful.exe.DumpBuildInfo m os) =
     Text.skip (String.length exe_text) (ios.beyond os) /\
   (ios.beyond os = "" ->
    ios.sequence (stateful.tmp.DumpBuildInfo m os) = ios.sequence os ++ lib_text /\
    ios.sequence (stateful.exe.DumpBuildInfo m os) = ios.sequence os ++ exe_text)) /\
  (ios.good os = false ->
   stateful.tmp.DumpBuildInfo m os = os /\ stateful.exe.DumpBuildInfo m os = os).
Proof.
  cbv zeta. split; [|apply stateful_not_good].
  intros Hgood.
  rewrite (stateful_lib_emits m os Hgood), (stateful_exe_emits m os Hgood).
  unfold body_lines, ios.sequence. cbn [tl ios.emit ios.before ios.beyond].
  split; [reflexivity | split; [reflexivity | split; [reflexivity | split; [reflexivity |]]]].
  intros Hend. rewrite Hend, !IosFacts.skip_empty, !TextFacts.append_nil_r.
  split; reflexivity.
Qed.

Lemma reporters_write_at_put_position_witness :
  ios.sequence (stateful.tmp.DumpBuildInfo sample_release ios.fresh) =
    lib_output sample_release /\
  stateful.tmp.DumpBuildInfo sample_release (ios.setw 5 (ios.holding "old")) =
    ios.emit (ios.holding "old") (lib_output sample_release).
Proof.
  destruct (reporters_write_at_put_position sample_release ios.fresh) as [Hgood _].
  destruct (Hgood eq_refl) as (_ & _ & _ & _ & Hend).
  destruct (Hend eq_refl) as [Hlib _].
  split; [rewrite Hlib; reflexivity | reflexivity].
Defined.

(** * Further properties *)

(** ** [tmp::add] as an operation on [int] *)

(** X1: [add] is commutative, and 0 is its identity on both sides for
    every representable operand. *)
Theorem add_commutative_with_identity (a b : Z) :
  tmp.add a b = tmp.add b a /\
  (Int.representable a -> tmp.add a 0 = a /\ tmp.add 0 a = a).
Proof.
  unfold tmp.add. split.
  - now rewrite Z.add_comm.
  - intros Ha. rewrite Z.add_0_r, Z.add_0_l. split; now apply IntFacts.wrap_id.
Qed.

Lemma add_commutative_with_identity_witness :
  tmp.add Int.min 0 = Int.min /\ tmp.add 0 Int.min = Int.min.
Proof.
  apply (add_commutative_with_identity Int.min 0).
  unfold Int.representable, Int.min, Int.max. lia.
Defined.

(** X2: [add] is associative, also when an intermediate sum wraps. *)
Theorem add_associative (a b c : Z) :
  tmp.add (tmp.add a b) c = tmp.add a (tmp.add b c).
Proof.
  unfold tmp.add, Int.wrap. f_equal.
  replace ((a + b - Int.min) mod Int.modulus + Int.min + c - Int.min)%Z
    with ((a + b - Int.min) mod Int.modulus + c)%Z by lia.
  replace (a + ((b + c - Int.min) mod Int.modulus + Int.min) - Int.min)%Z
    with (a + (b + c - Int.min) mod Int.modulus)%Z by lia.
  rewrite Z.add_mod_idemp_l, Z.add_mod_idemp_r by (unfold Int.modulus; lia).
  f_equal. lia.
Qed.

(** X3: for representable operands the result is the exact sum when that
    is representable, the sum less [2^32] when it exceeds the largest
    [int], and the sum plus [2^32] when it is below the smallest. *)
Theorem add_overflow_cases (left right : Z) :
  Int.representable left -> Int.representable right ->
  tmp.add left right =
    (if Int.max <? left + right then left + right - Int.modulus
     else if left + right <? Int.min then left + right + Int.modulus
     else left + right)%Z.
Proof.
  unfold Int.representable, tmp.add, Int.wrap, Int.min, Int.max, Int.modulus.
  intros Hl Hr.
  destruct (Z.ltb_spec (2 ^ 31 - 1) (left + right));
    [|destruct (Z.ltb_spec (left + right) (- 2 ^ 31))].
  - rewrite <- (Z.mod_unique (left + right - - 2 ^ 31) (2 ^ 32) 1
                          (left + right - - 2 ^ 31 - 2 ^ 32)); lia.
  - rewrite <- (Z.mod_unique (left + right - - 2 ^ 31) (2 ^ 32) (-1)
                          (left + right - - 2 ^ 31 + 2 ^ 32)); lia.
  - rewrite Z.mod_small; lia.
Qed.

Lemma add_overflow_cases_witness :
  tmp.add Int.max Int.max = (-2)%Z /\ tmp.add Int.min (-1) = Int.max.
Proof.
  split.
  - rewrite (add_overflow_cases Int.max Int.max);
      [reflexivity | unfold Int.representable, Int.min, Int.max; lia ..].
  - reflexivity.
Defined.

(** X4: [add] can be cancelled: adding the same [a] to two different
    representable values never gives the same result. *)
Theorem add_cancel_left (a b c : Z) :
  Int.representable b -> Int.representable c ->
  tmp.add a b = tmp.add a c -> b = c.
Proof.
  unfold Int.representable, tmp.add, Int.wrap, Int.min, Int.max, Int.modulus.
  intros Hb Hc H.
  assert (Hm : ((a + b - - 2 ^ 31) mod 2 ^ 32 = (a + c - - 2 ^ 31) mod 2 ^ 32)%Z) by lia.
  rewrite (Z.mod_eq (a + b - - 2 ^ 31) (2 ^ 32)) in Hm by lia.
  rewrite (Z.mod_eq (a + c - - 2 ^ 31) (2 ^ 32)) in Hm by lia.
  lia.
Qed.

Lemma add_cancel_left_witness : (7 = 7)%Z.
Proof.
  apply (add_cancel_left Int.max 7 7); try reflexivity;
    unfold Int.representable, Int.min, Int.max; lia.
Defined.

(** ** The revisions of the reporters *)

Ltac revision_norm :=
  cbv beta delta [tmp.DumpBuildInfo exe.DumpBuildInfo exe_ns.DumpBuildInfo
                  tmp_macros.DumpBuildInfo put put_char
                  lib_output exe_output body_lines version_line] zeta;
  cbn [Text.unlines];
  repeat rewrite TextFacts.append_assoc;
  cbn [append LF].

Lemma exe_ns_appends (m : Metadata) (os : Ostream) :
  exe_ns.DumpBuildInfo m os = os ++ exe_output m.
Proof. revision_norm. reflexivity. Qed.


(** X5: rewriting the executable's reporter from one chained statement over
    macros to one statement per line over the constants of namespace
    [project] changed no character of its output, and [main] behaves the
    same in both revisions. *)
Theorem exe_revisions_agree
    (m : Metadata) (os : Ostream) (argc : Z) (argv : list string) (p : exe.Process) :
  exe_ns.DumpBuildInfo m os = exe.DumpBuildInfo m os /\
  exe_ns.main argc argv p = exe.main argc argv p.
Proof.
  split.
  - now rewrite exe_ns_appends, exe_appends.
  - unfold exe_ns.main, exe.main, exe.with_cout.
    cbn [exe.cout exe.buildinfo_lib exe.buildinfo_bin].
    now rewrite exe_ns_appends, exe_appends.
Qed.


(** ** Size and shape of the report *)

Lemma line_feeds_append (a b : string) :
  Text.occurrences LF (a ++ b) = Text.occurrences LF a + Text.occurrences LF b.
Proof.
  induction a as [|x a IH]; [reflexivity|].
  change (String x a ++ b) with (String x (a ++ b)).
  unfold LF in *. cbn [Text.occurrences Text.starts_with]. rewrite IH.
  destruct (Ascii.eqb LF_char x); cbn; lia.
Qed.

Lemma line_feeds_none (f : string) :
  Text.mem LF_char f = false -> Text.occurrences LF f = 0.
Proof.
  induction f as [|x f IH]; [reflexivity|].
  unfold LF in *. cbn [Text.mem Text.occurrences Text.starts_with].
  intros H. apply orb_false_iff in H as [-> H]. now rewrite (IH H).
Qed.

Lemma total_line_feeds_none (ls : list string) :
  (forall f, In f ls -> Text.mem LF_char f = false) -> total_line_feeds ls = 0.
Proof.
  induction ls as [|s ls IH]; intros H; [reflexivity|].
  cbn [total_line_feeds]. rewrite line_feeds_none by (apply H; now left).
  apply IH. intros f Hf. apply H. now right.
Qed.

(** X9: the library report has thirteen line feeds of its own and the
    executable's report twelve, besides those inside the fields; when no
    field holds a line feed the library report is exactly thirteen lines. *)
Theorem report_line_feeds (m : Metadata) (os : Ostream) :
  Text.occurrences LF (written os (tmp.DumpBuildInfo m os)) =
    13 + total_line_feeds (fields m) /\
  Text.occurrences LF (written os (exe.DumpBuildInfo m os)) =
    12 + total_line_feeds (exe_fields m) /\
  (single_line m ->
   Text.occurrences LF (written os (tmp.DumpBuildInfo m os)) = 13).
Proof.
  rewrite lib_appends, exe_appends, !written_append.
  assert (Hlib : Text.occurrences LF (lib_output m) = 13 + total_line_feeds (fields m)).
  { rewrite lib_output_lines. unfold body_lines.
    cbn [Text.unlines fields total_line_feeds].
    rewrite !line_feeds_append. cbn [Text.occurrences Text.starts_with LF Ascii.eqb].
    simpl. lia. }
  split; [exact Hlib | split].
  - rewrite exe_output_lines. unfold body_lines.
    cbn [Text.unlines exe_fields total_line_feeds].
    rewrite !line_feeds_append. simpl. lia.
  - intros Hm. rewrite Hlib. now rewrite (total_line_feeds_none _ Hm).
Qed.

Lemma sample_release_single_line : single_line sample_release.
Proof.
  intros f Hf. cbn [fields In sample_release] in Hf.
  repeat match goal with
         | H : _ \/ _ |- _ => destruct H as [<-|H]
         | H : False |- _ => destruct H
         end; reflexivity.
Qed.

Lemma report_line_feeds_witness :
  Text.occurrences LF (written "" (tmp.DumpBuildInfo sample_release "")) = 13.
Proof.
  apply (report_line_feeds sample_release ""). exact sample_release_single_line.
Defined.

(** ** Reading a report back *)

Lemma mem_append (c : ascii) (a b : string) :
  Text.mem c (a ++ b) = Text.mem c a || Text.mem c b.
Proof.
  induction a as [|x a IH]; [reflexivity|].
  cbn [append Text.mem]. now rewrite IH, orb_assoc.
Qed.

(** The first [c] of a text fixes what stands before and after it. *)
Lemma split_unique (c : ascii) (a1 r1 a2 r2 : string) :
  Text.mem c a1 = false -> Text.mem c a2 = false ->
  a1 ++ String c r1 = a2 ++ String c r2 -> a1 = a2 /\ r1 = r2.
Proof.
  revert a2. induction a1 as [|x a1 IH]; intros [|y a2] H1 H2 H; cbn [append] in H.
  - injection H as H. now split.
  - injection H as Hc _. subst y. cbn [Text.mem] in H2.
    rewrite Ascii.eqb_refl in H2. discriminate.
  - injection H as Hc _. subst x. cbn [Text.mem] in H1.
    rewrite Ascii.eqb_refl in H1. discriminate.
  - injection H as Hxy H. subst y.
    cbn [Text.mem] in H1, H2.
    apply orb_false_iff in H1 as [_ H1]. apply orb_false_iff in H2 as [_ H2].
    destruct (IH a2 H1 H2 H) as [-> ->]. now split.
Qed.

Lemma append_char_inv (a b : string) (c : ascii) :
  a ++ String c "" = b ++ String c "" -> a = b.
Proof.
  revert b. induction a as [|x a IH]; intros [|y b] H; cbn [append] in H.
  - reflexivity.
  - injection H as _ H. symmetry in H. now apply TextFacts.append_not_empty in H.
  - injection H as _ H. now apply TextFacts.append_not_empty in H.
  - injection H as -> H. f_equal. now apply IH.
Qed.

(** A single-line text closed by [d] and a line feed. *)
Lemma split_unique_closed (d : ascii) (a1 r1 a2 r2 : string) :
  Text.mem LF_char a1 = false -> Text.mem LF_char a2 = false ->
  Ascii.eqb LF_char d = false ->
  a1 ++ String d (String LF_char r1) = a2 ++ String d (String LF_char r2) ->
  a1 = a2 /\ r1 = r2.
Proof.
  intros H1 H2 Hd H.
  assert (H' : (a1 ++ String d "") ++ String LF_char r1 =
               (a2 ++ String d "") ++ String LF_char r2)
    by (now rewrite !TextFacts.append_assoc).
  apply split_unique in H'.
  - destruct H' as [Ha Hr]. split; [now apply append_char_inv in Ha | exact Hr].
  - rewrite mem_append, H1. cbn [Text.mem]. now rewrite Hd.
  - rewrite mem_append, H2. cbn [Text.mem]. now rewrite Hd.
Qed.

Lemma single_line_fields (m : Metadata) :
  single_line m ->
  Forall (fun f => Text.mem LF_char f = false) (fields m).
Proof. intros H. apply Forall_forall. exact H. Qed.

Ltac peel H :=
  repeat match type of H with
         | String ?c _ = String ?c _ => injection H as H
         end.

Ltac cut_at H c Hf :=
  peel H; apply (split_unique c) in H; [destruct H as [Hf H] | assumption ..].

(** X10: a report can be read back.  When every field is on one line and
    the build type, the user, the target system and the compiler id hold no
    space, the library report determines the whole metadata record: two
    such records with the same report are equal. *)
Theorem report_determines_record (m1 m2 : Metadata) :
  readable m1 -> readable m2 ->
  lib_output m1 = lib_output m2 -> m1 = m2.
Proof.
  intros (Hl1 & Hbt1 & Hu1 & Hs1 & Hc1) (Hl2 & Hbt2 & Hu2 & Hs2 & Hc2) H.
  apply single_line_fields in Hl1, Hl2.
  destruct m1, m2. unfold fields in Hl1, Hl2.
  cbn [fields version build_type build_timestamp build_user build_host
       target_system target_architecture host_system compiler_id
       compiler_version git_describe git_commit_hash] in *.
  repeat match goal with
         | F : Forall _ (_ :: _) |- _ =>
             let Hx := fresh "Hlf" in
             apply Forall_cons_iff in F as [Hx F]; cbn beta in Hx
         end.
  revert H. revision_norm.
  cbn [version build_type build_timestamp build_user build_host
       target_system target_architecture host_system compiler_id
       compiler_version git_describe git_commit_hash].
  intros H.
  cut_at H LF_char Ev.
  cut_at H " "%char Ebt.
  peel H. apply split_unique_closed in H;
    [destruct H as [Ets H] | assumption | assumption | reflexivity].
  cut_at H " "%char Eu.
  cut_at H LF_char Eh.
  cut_at H " "%char Es.
  cut_at H LF_char Ea.
  cut_at H LF_char Ehs.
  cut_at H " "%char Ec.
  cut_at H LF_char Ecv.
  cut_at H LF_char Egd.
  cut_at H LF_char Egh.
  now subst.
Qed.

Lemma sample_release_readable : readable sample_release.
Proof.
  split; [|repeat split].
  intros f Hf. cbn [fields In sample_release] in Hf.
  repeat match goal with
         | H : _ \/ _ |- _ => destruct H as [<-|H]
         | H : False |- _ => destruct H
         end; reflexivity.
Qed.

Lemma report_determines_record_witness : sample_release = sample_release.
Proof.
  apply (report_determines_record sample_release sample_release);
    [exact sample_release_readable | exact sample_release_readable | reflexivity].
Defined.

(** X11: without that, a report does not tell where one field ends and the
    next begins: moving a word across the space of the platform line gives
    a different record with the very same report. *)
Theorem platform_line_is_ambiguous (m : Metadata) (a b c : string) (os : Ostream) :
  with_platform m (a ++ " " ++ b) c <> with_platform m a (b ++ " " ++ c) /\
  tmp.DumpBuildInfo (with_platform m (a ++ " " ++ b) c) os =
  tmp.DumpBuildInfo (with_platform m a (b ++ " " ++ c)) os.
Proof.
  split.
  - intros H. apply (f_equal target_system) in H. cbn [with_platform target_system] in H.
    apply (f_equal String.length) in H.
    rewrite TextFacts.length_append in H. cbn [append String.length] in H. lia.
  - revision_norm.
    cbn [with_platform version build_type build_timestamp build_user build_host
         target_system target_architecture host_system compiler_id
         compiler_version git_describe git_commit_hash].
    repeat rewrite TextFacts.append_assoc. reflexivity.
Qed.

(** ** What the script makes of its inputs *)
Module ScriptMore.
Import buildinfo_script.

Lemma toupper_char_not_lower (c : ascii) : is_lower (toupper_char c) = false.
Proof. destruct c as [[] [] [] [] [] [] [] []]; reflexivity. Qed.

Lemma toupper_char_idempotent (c : ascii) :
  toupper_char (toupper_char c) = toupper_char c.
Proof. destruct c as [[] [] [] [] [] [] [] []]; reflexivity. Qed.

Lemma TOUPPER_no_lower (s : string) :
  all_chars (fun c => negb (is_lower c)) (TOUPPER s) = true.
Proof.
  induction s as [|c s IH]; [reflexivity|].
  cbn [TOUPPER all_chars]. now rewrite toupper_char_not_lower, IH.
Qed.

Lemma TOUPPER_idempotent (s : string) : TOUPPER (TOUPPER s) = TOUPPER s.
Proof.
  induction s as [|c s IH]; [reflexivity|].
  cbn [TOUPPER]. now rewrite toupper_char_idempotent, IH.
Qed.

Lemma BUILD_TYPE_eq (i : Invocation) :
  BUILD_TYPE (generate i) =
  if is_off (TOUPPER (CMAKE_BUILD_TYPE i)) then "UNKNOWN"
  else TOUPPER (CMAKE_BUILD_TYPE i).
Proof. unfold generate. destruct (GIT_FOUND i && dot_git_exists i); reflexivity. Qed.

Lemma ends_with_append (s a : string) : ends_with s (a ++ s) = true.
Proof.
  induction a as [|x a IH]; cbn [append ends_with].
  - destruct s; cbn [ends_with]; now rewrite String.eqb_refl.
  - rewrite IH. apply orb_true_r.
Qed.

End ScriptMore.

Lemma lib_output_tail (m : Metadata) :
  lib_output m =
  Text.unlines (firstn 11 ("Build Information" :: "-----------------" ::
                           ("Version  : " ++ version m) :: body_lines m)) ++
  Text.unlines [ "Source   : " ++ git_describe m; "Commit   : " ++ git_commit_hash m ].
Proof.
  rewrite lib_output_lines. unfold body_lines. cbn [firstn Text.unlines].
  repeat rewrite TextFacts.append_assoc. reflexivity.
Qed.

(** X12: whatever [CMAKE_BUILD_TYPE] was passed, the build type written to
    the header has no lower-case letter and is none of the values CMake
    reads as false (empty, [0], [N], [NO], [OFF], [FALSE], [IGNORE],
    [NOTFOUND], [...-NOTFOUND]). *)
Theorem build_type_is_normalised (i : buildinfo_script.Invocation) :
  all_chars (fun c => negb (is_lower c))
            (buildinfo_script.BUILD_TYPE (buildinfo_script.generate i)) = true /\
  buildinfo_script.is_off
    (buildinfo_script.BUILD_TYPE (buildinfo_script.generate i)) = false.
Proof.
  rewrite ScriptMore.BUILD_TYPE_eq.
  destruct (buildinfo_script.is_off
              (buildinfo_script.TOUPPER (buildinfo_script.CMAKE_BUILD_TYPE i))) eqn:Hoff.
  - split; reflexivity.
  - split; [apply ScriptMore.TOUPPER_no_lower | exact Hoff].
Qed.

(** X13: normalising the build type is idempotent and blind to letter
    case: passing the script its own [BUILD_TYPE], or the upper-case form
    of the build type, gives the same [BUILD_TYPE] again. *)
Theorem build_type_normalisation_idempotent (i : buildinfo_script.Invocation) :
  buildinfo_script.BUILD_TYPE
    (buildinfo_script.generate
       (with_build_type i (buildinfo_script.BUILD_TYPE (buildinfo_script.generate i)))) =
  buildinfo_script.BUILD_TYPE (buildinfo_script.generate i) /\
  buildinfo_script.BUILD_TYPE
    (buildinfo_script.generate
       (with_build_type i (buildinfo_script.TOUPPER (buildinfo_script.CMAKE_BUILD_TYPE i)))) =
  buildinfo_script.BUILD_TYPE (buildinfo_script.generate i).
Proof.
  rewrite !ScriptMore.BUILD_TYPE_eq.
  cbn [with_build_type buildinfo_script.CMAKE_BUILD_TYPE].
  destruct (buildinfo_script.is_off
              (buildinfo_script.TOUPPER (buildinfo_script.CMAKE_BUILD_TYPE i))) eqn:Hoff.
  - split; [reflexivity|].
    now rewrite ScriptMore.TOUPPER_idempotent, Hoff.
  - now rewrite ScriptMore.TOUPPER_idempotent, Hoff.
Qed.



(** X15: built where Git is not found or the sources have no [.git], the
    library report always ends with the two sentinel lines
    ["Source   : no-git"] and ["Commit   : unknown"]. *)
Theorem report_without_git
    (i : buildinfo_script.Invocation) (project_version : string) (os : Ostream) :
  buildinfo_script.GIT_FOUND i && buildinfo_script.dot_git_exists i = false ->
  buildinfo_script.ends_with
    ("Source   : no-git" ++ LF ++ "Commit   : unknown" ++ LF)
    (written os (tmp.DumpBuildInfo
                   (metadata_of project_version (buildinfo_script.generate i)) os))
  = true.
Proof.
  intros Hgit. destruct (ScriptFacts.git_sentinels i Hgit) as [Hh Hs].
  rewrite lib_appends, written_append, lib_output_tail.
  cbn [metadata_of git_describe git_commit_hash].
  rewrite Hh, Hs.
  exact (ScriptMore.ends_with_append
           ("Source   : no-git" ++ LF ++ "Commit   : unknown" ++ LF) _).
Qed.

Lemma report_without_git_witness :
  buildinfo_script.ends_with
    ("Source   : no-git" ++ LF ++ "Commit   : unknown" ++ LF)
    (written "" (tmp.DumpBuildInfo cross_build_metadata "")) = true.
Proof. apply (report_without_git cross_build "0.1.0" ""). reflexivity. Defined.

(** X16: the executable's reporter never prints a version: the word
    "Version" is in its report only if a field of the header brings it,
    while the library report has it exactly once. *)
Theorem exe_report_has_no_version (m : Metadata) (os : Ostream) :
  free_of "Version" m ->
  Text.occurrences "Version" (written os (exe.DumpBuildInfo m os)) = 0 /\
  Text.occurrences "Version" (written os (tmp.DumpBuildInfo m os)) = 1.
Proof.
  intros H. rewrite exe_appends, lib_appends, !written_append.
  split; count_word H.
Qed.

Lemma exe_report_has_no_version_witness :
  Text.occurrences "Version" (written "" (exe.DumpBuildInfo sample_release "")) = 0.
Proof.
  apply (exe_report_has_no_version sample_release "").
  intros f Hf. cbn [fields In sample_release] in Hf.
  repeat match goal with
         | H : _ \/ _ |- _ => destruct H as [<-|H]
         | H : False |- _ => destruct H
         end; reflexivity.
Defined.
